(** * Verification of the cnd manifest model and session state storage

    Shallow embedding of [pkg/model/dev.go] and [pkg/storage/storage.go].
    Go strings are Rocq [string]s, Go maps keyed by strings are stdpp
    [gmap string _], every Go [error] return is a [Result], and a call
    that may panic ends in an [Outcome].  The file system is explicit: the
    manifest and the state file are inputs, and the state-file operations
    thread the state file through a small state, error and panic monad. *)

From Stdlib Require Import String Ascii Bool List.
From stdpp Require Import base gmap strings list.
Import ListNotations.
Open Scope string_scope.

(* ------------------------------------------------------------------ *)
(** ** Errors and results *)

(** The errors returned by the two packages.  Messages built with
    [fmt.Errorf] are represented by their constructor and the values they
    print. *)
Inductive Error :=
  | ErrAlreadyRunning                    (* storage.ErrAlreadyRunning *)
  | ErrNotFound (fullName : string)      (* Get: "there aren't any active ..." *)
  | ErrReadStorage                       (* load: "error reading the storage file" *)
  | ErrUnmarshalStorage                  (* load: "error unmarshalling the storage file" *)
  | ErrWriteStorage                      (* save: "error writing storage" *)
  | ErrGetwd                             (* os.Getwd failed *)
  | ErrReadManifest                      (* ReadDev: ioutil.ReadFile failed *)
  | ErrParseManifest                     (* loadDev: yaml.Unmarshal failed *)
  | ErrSourceMissing (source : string)   (* "Source mount folder %s does not exists" *)
  | ErrSourceNotDir                      (* "Source mount folder is not a directory" *)
  | ErrNameEmpty.                        (* "Swap deployment name cannot be empty" *)

Inductive Result (A : Type) :=
  | Ok (a : A)
  | Err (e : Error).
Arguments Ok {A} a.
Arguments Err {A} e.

(** A Go call either returns (a value or an error) or panics. *)
Inductive Outcome (A : Type) :=
  | Returned (r : Result A)
  | Panicked (msg : string).
Arguments Returned {A} r.
Arguments Panicked {A} msg.

(* ------------------------------------------------------------------ *)
(** ** Go's [path] and [path/filepath] on a Unix host *)

Module GoPath.

(** [strings.HasPrefix] *)
Fixpoint HasPrefix (s prefix : string) : bool :=
  match prefix, s with
  | EmptyString, _ => true
  | String c p, String c' s' => Ascii.eqb c c' && HasPrefix s' p
  | String _ _, EmptyString => false
  end.

(** [path.IsAbs] and, on Unix, [filepath.IsAbs]. *)
Definition IsAbs (p : string) : bool := HasPrefix p "/".

(** The elements of [p] between slashes ([strings.Split(p, "/")]). *)
Fixpoint split_slash (p : string) : list string :=
  match p with
  | EmptyString => [""]
  | String c p' =>
      if Ascii.eqb c "/" then "" :: split_slash p'
      else match split_slash p' with
           | [] => [String c ""]
           | x :: xs => String c x :: xs
           end
  end.

Fixpoint join_slash (l : list string) : string :=
  match l with
  | [] => ""
  | [x] => x
  | x :: xs => x ++ "/" ++ join_slash xs
  end.

(** One element of [path.Clean]'s scan; [st] holds the kept elements,
    last one first. *)
Definition clean_step (rooted : bool) (st : list string) (e : string)
    : list string :=
  if (e =? "") || (e =? ".") then st
  else if e =? ".." then
    match st with
    | x :: st' => if x =? ".." then ".." :: st else st'
    | [] => if rooted then [] else [".."]
    end
  else e :: st.

(** [path.Clean]: drop empty and "." elements, cancel each ".." against
    the element before it, drop ".." at the start of a rooted path; the
    empty result is "." ("/" when rooted). *)
Definition Clean (p : string) : string :=
  let rooted := IsAbs p in
  let body := join_slash (rev (fold_left (clean_step rooted) (split_slash p) [])) in
  if rooted then "/" ++ body
  else if body =? "" then "." else body.

(** [path.Join] (and [filepath.Join] on Unix): from the first non-empty
    element on, join with "/" and clean; "" when every element is empty. *)
Fixpoint Join (elem : list string) : string :=
  match elem with
  | [] => ""
  | e :: rest => if e =? "" then Join rest else Clean (join_slash (e :: rest))
  end.

(** The directory part of [path.Split]: everything up to and including
    the last "/". *)
Fixpoint split_dir (p : string) : string :=
  match p with
  | EmptyString => ""
  | String c p' =>
      let d := split_dir p' in
      if d =? "" then (if Ascii.eqb c "/" then "/" else "") else String c d
  end.

(** [path.Dir] *)
Definition Dir (p : string) : string := Clean (split_dir p).

End GoPath.

Import GoPath.

(* ------------------------------------------------------------------ *)
(** ** The state file *)

(** A YAML document as [gopkg.in/yaml.v2] reads and writes it, at the
    level of its node tree: [YNull] is the null scalar ([~], [null], or a
    key with no value), any other scalar is kept as its text, and
    mappings are lists of key/value pairs in document order. *)
#[warnings="-register-all"]
Inductive yaml :=
  | YNull
  | YScalar (s : string)
  | YSeq (items : list yaml)
  | YMap (kvs : list (string * yaml)).

(** The state file at [stPath]. *)
Inductive StFile :=
  | FMissing                  (* os.Stat reports IsNotExist *)
  | FUnreadable               (* ioutil.ReadFile fails *)
  | FMalformed                (* bytes that are not YAML *)
  | FEmpty                    (* no document at all, e.g. zero bytes *)
  | FContents (d : yaml).     (* one YAML document *)

(** What [ioutil.WriteFile] does to the state file.  It opens the file
    with [O_WRONLY|O_CREATE|O_TRUNC], then writes the bytes and closes
    it. *)
Inductive WriteKind :=
  | WriteOk                   (* the file holds the bytes written *)
  | WriteOpenFails            (* os.OpenFile fails: the file is untouched *)
  | WriteFails (rest : StFile). (* the write or the close fails after the
                                   truncation: the file is what is left *)

(* ------------------------------------------------------------------ *)
(** ** The operating system as seen by the two packages *)

(** What [os.Stat] reports for a path. *)
Inductive StatKind :=
  | StatNotExist           (* error with os.IsNotExist *)
  | StatError              (* any other error: permission denied, ENOTDIR, ... *)
  | StatFile               (* exists, not a directory *)
  | StatDir.               (* exists, a directory *)

(** A manifest file's decoded YAML: the scalar fields of [Dev] it sets.
    Fields absent from the document keep the value they had before
    [yaml.Unmarshal]. *)
Record DevDoc := {
  doc_name : option string;
  doc_container : option string;
  doc_image : option string;
  doc_source : option string;
  doc_target : option string
}.

(** The bytes of a manifest file: a YAML document or malformed text. *)
Inductive ManifestBytes :=
  | MDoc (d : DevDoc)
  | MMalformed.

Record OS := {
  HOME : string;                        (* os.Getenv("HOME") *)
  Cwd : string;                         (* the process working directory *)
  GetwdFails : bool;                    (* whether os.Getwd returns an error *)
  FS : string -> StatKind;              (* os.Stat on a non-empty absolute path, as
                                           the kernel resolves it *)
  ReadFile : string -> option ManifestBytes;  (* ioutil.ReadFile; None on error *)
  StPath : string;                      (* storage's stPath,
                                           path.Join(model.GetCNDHome(), ".state") *)
  WriteFile : WriteKind                 (* ioutil.WriteFile on stPath *)
}.

(** Whether [ioutil.WriteFile] on [stPath] succeeds. *)
Definition Writable (env : OS) : bool :=
  match WriteFile env with WriteOk => true | _ => false end.

(** [os.Getwd] *)
Definition Getwd (env : OS) : Result string :=
  if GetwdFails env then Err ErrGetwd else Ok (Cwd env).

(** [os.Stat].  The empty path fails with ENOENT.  The kernel resolves a
    relative path from the working directory.  The path reaches [FS]
    uncleaned, so ".." after a symbolic link, or a trailing slash after a
    regular file, is for the file system to decide. *)
Definition Stat (env : OS) (p : string) : StatKind :=
  if p =? "" then StatNotExist
  else FS env (if IsAbs p then p else Cwd env ++ "/" ++ p).

(* ------------------------------------------------------------------ *)
(** ** pkg/model/dev.go *)

Module Model.

(** [Deployment], [Swap], [Mount] and [Dev], with the fields the code of
    this file reads; field names are the YAML tags. ([Command], [Args]
    and [Scripts] are never read by these operations and are left out.) *)
Record Deployment := { name : string; container : string; image : string }.
Record Swap := { deployment : Deployment }.
Record Mount := { source : string; target : string }.
Record Dev := { swap : Swap; mount : Mount }.

Definition Name (d : Dev) : string := name (deployment (swap d)).
Definition Container (d : Dev) : string := container (deployment (swap d)).
Definition Source (d : Dev) : string := source (mount d).

Definition set_source (d : Dev) (s : string) : Dev :=
  {| swap := swap d; mount := {| source := s; target := target (mount d) |} |}.

(** [yaml.Unmarshal(b, &dev)] on a decoded document: present fields
    overwrite. *)
Definition unmarshal_dev (doc : DevDoc) (d : Dev) : Dev :=
  let dep := deployment (swap d) in
  {| swap := {| deployment := {|
        name := default (name dep) (doc_name doc);
        container := default (container dep) (doc_container doc);
        image := default (image dep) (doc_image doc) |} |};
     mount := {|
        source := default (source (mount d)) (doc_source doc);
        target := default (target (mount d)) (doc_target doc) |} |}.

(** [loadDev] *)
Definition loadDev (env : OS) (b : ManifestBytes) : Result Dev :=
  let dev := {| swap := {| deployment := {| name := ""; container := ""; image := "" |} |};
                mount := {| source := "."; target := "/src" |} |} in
  match b with
  | MMalformed => Err ErrParseManifest
  | MDoc doc =>
      let dev := unmarshal_dev doc dev in
      if HasPrefix (Source dev) "~/" then
        let home := HOME env in
        Ok (set_source dev (Join [home; substring 2 (String.length (Source dev) - 2) (Source dev)]))
      else Ok dev
  end.

(** [validate], a method on [Dev]: when [os.Stat] fails with an error other than
    "not exist", [file] is nil and [file.Mode()] panics. *)
Definition validate (env : OS) (dev : Dev) : Outcome unit :=
  match Stat env (Source dev) with
  | StatNotExist => Returned (Err (ErrSourceMissing (Source dev)))
  | StatError => Panicked "invalid memory address or nil pointer dereference"
  | StatFile => Returned (Err ErrSourceNotDir)
  | StatDir =>
      if Name dev =? "" then Returned (Err ErrNameEmpty) else Returned (Ok tt)
  end.

(** [fixPath], a method on [Dev]; the error of [os.Getwd] is discarded, leaving "". *)
Definition fixPath (env : OS) (dev : Dev) (originalPath : string) : Dev :=
  let wd := match Getwd env with Ok w => w | Err _ => "" end in
  if negb (IsAbs (Source dev)) then
    if IsAbs originalPath then
      set_source dev (Join [Dir originalPath; Source dev])
    else
      set_source dev (Join [wd; Dir originalPath; Source dev])
  else dev.

(** [ReadDev] *)
Definition ReadDev (env : OS) (devPath : string) : Outcome Dev :=
  match ReadFile env devPath with
  | None => Returned (Err ErrReadManifest)
  | Some b =>
      match loadDev env b with
      | Err e => Returned (Err e)
      | Ok d =>
          match validate env d with
          | Panicked m => Panicked m
          | Returned (Err e) => Returned (Err e)
          | Returned (Ok _) => Returned (Ok (fixPath env d devPath))
          end
      end
  end.

(** The constants of dev.go used for derived names. *)
Definition CNDManifestAnnotationPrefix : string := "cnd.okteto.com/cnd-manifest-".
Definition CNDSyncContainer : string := "cnd-sync".

(** [GetCNDManifestAnnotation]: [fmt.Sprintf("cnd.okteto.com/cnd-manifest-%s", container)]. *)
Definition GetCNDManifestAnnotation (dev : Dev) : string :=
  "cnd.okteto.com/cnd-manifest-" ++ Container dev.

(** [GetCNDInitSyncContainer]: [fmt.Sprintf("cnd-init-%s", container)]. *)
Definition GetCNDInitSyncContainer (dev : Dev) : string := "cnd-init-" ++ Container dev.

(** [GetCNDSyncVolume]: [fmt.Sprintf("cnd-data-%s", container)]. *)
Definition GetCNDSyncVolume (dev : Dev) : string := "cnd-data-" ++ Container dev.

(** [GetCNDSyncMount]: [fmt.Sprintf("/var/cnd-sync/%s", container)]. *)
Definition GetCNDSyncMount (dev : Dev) : string := "/var/cnd-sync/" ++ Container dev.

End Model.

(* ------------------------------------------------------------------ *)
(** ** pkg/storage/storage.go *)

Module Storage.

(** [Service]: fields [Folder] and [Syncthing], named by their YAML tags. *)
Record Service := { folder : string; syncthing : string }.

(** [Storage].  [path] is what [load] stores, [stPath], unless a null
    document has zeroed the whole value.  [services] holds the entries of
    the [Services] map and [services_nil] tells whether that map is nil;
    a nil map has no entries. *)
Record Storage := {
  path : string;
  version : string;
  services : gmap string Service;
  services_nil : bool
}.

Definition set_services (s : Storage) (m : gmap string Service) : Storage :=
  {| path := path s; version := version s; services := m; services_nil := services_nil s |}.

(** The constant [version]. *)
Definition current_version : string := "1.0".

Definition zero_service : Service := {| folder := ""; syncthing := "" |}.

(** The zero [Storage]: empty path and version, nil map. *)
Definition zero_storage : Storage :=
  {| path := ""; version := ""; services := ∅; services_nil := true |}.

(** Go's [==] on [Service] values. *)
Definition Service_eqb (a b : Service) : bool :=
  (folder a =? folder b) && (syncthing a =? syncthing b).

(** *** yaml.Marshal, with the [omitempty] tags ([path] is unexported) *)

Definition omitempty (key v : string) : list (string * yaml) :=
  if v =? "" then [] else [(key, YScalar v)].

Definition encode_service (svc : Service) : yaml :=
  YMap (omitempty "folder" (folder svc) ++ omitempty "syncthing" (syncthing svc)).

Definition encode_services (m : gmap string Service) : list (string * yaml) :=
  map (fun kv => (kv.1, encode_service kv.2)) (map_to_list m).

(** A nil or empty map is omitted ([omitempty] tests [len(m) == 0]).
    yaml.v2 writes map keys sorted; the order does not matter to the
    decoder.  Marshalling this type cannot fail. *)
Definition encode_storage (s : Storage) : yaml :=
  YMap (omitempty "version" (version s) ++
        (if Nat.eqb (size (services s)) 0 then []
         else [("services", YMap (encode_services (services s)))])).

(** *** yaml.Unmarshal into a value holding defaults *)

(** A [string] field: null stores the zero value "". *)
Definition decode_string (y : yaml) : Result string :=
  match y with
  | YNull => Ok ""
  | YScalar v => Ok v
  | _ => Err ErrUnmarshalStorage
  end.

Fixpoint decode_service_fields (kvs : list (string * yaml)) (svc : Service)
    : Result Service :=
  match kvs with
  | [] => Ok svc
  | (k, y) :: rest =>
      if k =? "folder" then
        match decode_string y with
        | Ok v => decode_service_fields rest {| folder := v; syncthing := syncthing svc |}
        | Err e => Err e
        end
      else if k =? "syncthing" then
        match decode_string y with
        | Ok v => decode_service_fields rest {| folder := folder svc; syncthing := v |}
        | Err e => Err e
        end
      else decode_service_fields rest svc
  end.

(** Each map value is decoded into a fresh zero [Service]; a null value
    leaves it zero. *)
Definition decode_service (y : yaml) : Result Service :=
  match y with
  | YNull => Ok zero_service
  | YMap kvs => decode_service_fields kvs zero_service
  | _ => Err ErrUnmarshalStorage
  end.

(** Entries are stored into the existing map, in document order. *)
Fixpoint decode_services (kvs : list (string * yaml)) (m : gmap string Service)
    : Result (gmap string Service) :=
  match kvs with
  | [] => Ok m
  | (k, y) :: rest =>
      match decode_service y with
      | Err e => Err e
      | Ok svc => decode_services rest (<[k := svc]> m)
      end
  end.

(** A null [services] value sets the map to nil; a mapping is decoded
    into the map, which is made first if it is nil. *)
Fixpoint decode_storage_fields (kvs : list (string * yaml)) (s : Storage)
    : Result Storage :=
  match kvs with
  | [] => Ok s
  | (k, y) :: rest =>
      if k =? "version" then
        match decode_string y with
        | Ok v =>
            decode_storage_fields rest
              {| path := path s; version := v; services := services s;
                 services_nil := services_nil s |}
        | Err e => Err e
        end
      else if k =? "services" then
        match y with
        | YNull =>
            decode_storage_fields rest
              {| path := path s; version := version s; services := ∅; services_nil := true |}
        | YMap l =>
            match decode_services l (services s) with
            | Err e => Err e
            | Ok m =>
                decode_storage_fields rest
                  {| path := path s; version := version s; services := m;
                     services_nil := false |}
            end
        | _ => Err ErrUnmarshalStorage
        end
      else decode_storage_fields rest s
  end.

(** A null document sets the whole value to its zero, [path] included. *)
Definition decode_storage (d : yaml) (s : Storage) : Result Storage :=
  match d with
  | YNull => Ok zero_storage
  | YMap kvs => decode_storage_fields kvs s
  | _ => Err ErrUnmarshalStorage
  end.

(** *** A state, error and panic monad over the state file *)

Definition St (A : Type) : Type := StFile -> Outcome A * StFile.

Global Instance St_ret : MRet St := fun A a f => (Returned (Ok a), f).
Global Instance St_bind : MBind St := fun A B k m f =>
  match m f with
  | (Returned (Ok a), f') => k a f'
  | (Returned (Err e), f') => (Returned (Err e), f')
  | (Panicked msg, f') => (Panicked msg, f')
  end.

Definition throw {A} (e : Error) : St A := fun f => (Returned (Err e), f).
Definition lift {A} (r : Result A) : St A := fun f => (Returned r, f).
Definition panic {A} (msg : string) : St A := fun f => (Panicked msg, f).

(** *** The operations *)

(** The value [load] starts from before reading the file. *)
Definition fresh (env : OS) : Storage :=
  {| path := StPath env; version := current_version; services := ∅; services_nil := false |}.

Definition load_file (env : OS) (f : StFile) : Result Storage :=
  match f with
  | FMissing => Ok (fresh env)
  | FUnreadable => Err ErrReadStorage
  | FMalformed => Err ErrUnmarshalStorage
  | FEmpty => Ok (fresh env)
  | FContents d => decode_storage d (fresh env)
  end.

(** [load] *)
Definition load (env : OS) : St Storage := fun f => (Returned (load_file env f), f).

(** [save], a method on [Storage]: [ioutil.WriteFile(s.path, ...)].  The
    path is [stPath], or "" after a null document; os.OpenFile("") fails
    with ENOENT and touches nothing.  No other path is ever stored. *)
Definition save (env : OS) (s : Storage) : St unit := fun f =>
  if path s =? StPath env then
    match WriteFile env with
    | WriteOk => (Returned (Ok tt), FContents (encode_storage s))
    | WriteOpenFails => (Returned (Err ErrWriteStorage), f)
    | WriteFails rest => (Returned (Err ErrWriteStorage), rest)
    end
  else (Returned (Err ErrWriteStorage), f).

(** [fixPath] of this package. *)
Definition fixPath (env : OS) (originalPath : string) : Result string :=
  if IsAbs originalPath then Ok originalPath
  else match Getwd env with
       | Err e => Err e
       | Ok folder => Ok (Join [folder; originalPath])
       end.

(** [newService] *)
Definition newService (env : OS) (folder' host : string) : Result Service :=
  match fixPath env folder' with
  | Err e => Err e
  | Ok absFolder => Ok {| folder := absFolder; syncthing := host |}
  end.

(** [getFullName]: [fmt.Sprintf("%s/%s/%s", ...)]. *)
Definition getFullName (namespace : string) (dev : Model.Dev) : string :=
  namespace ++ "/" ++ Model.Name dev ++ "/" ++ Model.Container dev.

(** The run-time panic of an assignment into a nil map. *)
Definition nil_map_panic : string := "assignment to entry in nil map".

(** [s.Services[k] = v] *)
Definition assign (s : Storage) (k : string) (v : Service) : St Storage :=
  if services_nil s then panic nil_map_panic
  else mret (set_services s (<[k := v]> (services s))).

(** [Insert] *)
Definition Insert (env : OS) (namespace : string) (dev : Model.Dev) (host : string)
    : St unit :=
  s ← load env;
  let fullName := getFullName namespace dev in
  svc ← lift (newService env (Model.Source dev) host);
  let upsert := (s' ← assign s fullName svc; save env s') in
  match services s !! fullName with
  | Some svc2 =>
      if Service_eqb svc2 svc then mret tt
      else if negb (syncthing svc2 =? "") then throw ErrAlreadyRunning
      else upsert
  | None => upsert
  end.

(** [Get] *)
Definition Get (env : OS) (namespace : string) (dev : Model.Dev) : St Service :=
  s ← load env;
  let fullName := getFullName namespace dev in
  match services s !! fullName with
  | None => throw (ErrNotFound fullName)
  | Some svc => mret svc
  end.

(** [Stop] *)
Definition Stop (env : OS) (namespace : string) (dev : Model.Dev) : St unit :=
  s ← load env;
  let fullName := getFullName namespace dev in
  match services s !! fullName with
  | Some svc =>
      s' ← assign s fullName {| folder := folder svc; syncthing := "" |};
      save env s'
  | None => mret tt
  end.

(** [Delete]: deleting from a nil map does nothing. *)
Definition Delete (env : OS) (namespace : string) (dev : Model.Dev) : St unit :=
  s ← load env;
  let fullName := getFullName namespace dev in
  save env (set_services s (delete fullName (services s))).

(** [All]: a load error yields the nil map; both it and a nil
    [Services] read as empty. *)
Definition All (env : OS) (f : StFile) : gmap string Service :=
  match load_file env f with
  | Ok s => services s
  | Err _ => ∅
  end.

(** [s.Services[k] = v] followed by [s.save()], as one step on the state file. *)
Definition assign_save (env : OS) (s : Storage) (k : string) (v : Service) (f : StFile)
    : Outcome unit * StFile :=
  if services_nil s then (Panicked nil_map_panic, f)
  else save env (set_services s (<[k := v]> (services s))) f.

End Storage.

(** [strings.Contains(s, "/")] *)
Fixpoint has_slash (s : string) : bool :=
  match s with
  | EmptyString => false
  | String c s' => Ascii.eqb c "/" || has_slash s'
  end.

(* ------------------------------------------------------------------ *)
(** ** Concrete inputs, after the end-to-end scenario of the spec *)

Definition mkDev (nm cont src : string) : Model.Dev :=
  {| Model.swap := {| Model.deployment :=
       {| Model.name := nm; Model.container := cont; Model.image := "" |} |};
     Model.mount := {| Model.source := src; Model.target := "/src" |} |}.

(** A host whose working directory is /home/u and whose writes succeed. *)
Definition env0 : OS :=
  {| HOME := "/home/u"; Cwd := "/home/u"; GetwdFails := false;
     FS := fun _ => StatNotExist; ReadFile := fun _ => None;
     StPath := "/home/u/.cnd/.state"; WriteFile := WriteOk |}.

Definition web : Model.Dev := mkDev "web" "app" "/work/web".

(** A state file entry for a service. *)
Definition service_yaml (fo sy : string) : yaml :=
  YMap [("folder", YScalar fo); ("syncthing", YScalar sy)].

(** A state file holding one service for default/web/app. *)
Definition one_service (fo sy : string) : StFile :=
  FContents (YMap [("version", YScalar "1.0");
                   ("services", YMap [("default/web/app", service_yaml fo sy)])]).

(** A state file holding default/web/app and default/api/app. *)
Definition two_services : StFile :=
  FContents (YMap [("version", YScalar "1.0");
                   ("services", YMap [("default/api/app", service_yaml "/work/api" "host:1");
                                      ("default/web/app", service_yaml "/work/web" "host:2")])]).

(** A state file whose [services] key has no value. *)
Definition nil_services : StFile :=
  FContents (YMap [("version", YScalar "1.0"); ("services", YNull)]).

(** A host whose writes to the state file fail after truncating it to
    nothing. *)
Definition env_trunc : OS :=
  {| HOME := "/home/u"; Cwd := "/home/u"; GetwdFails := false;
     FS := fun _ => StatNotExist; ReadFile := fun _ => None;
     StPath := "/home/u/.cnd/.state"; WriteFile := WriteFails FEmpty |}.

(** What [load] reads from [two_services]. *)
Definition two_services_loaded : Storage.Storage :=
  match Storage.load_file env0 two_services with Ok s => s | Err _ => Storage.fresh env0 end.

(** A manifest for deployment web, container app, with the given source. *)
Definition web_doc (src : string) : DevDoc :=
  {| doc_name := Some "web"; doc_container := Some "app"; doc_image := None;
     doc_source := Some src; doc_target := None |}.

(** The given paths are directories and nothing else exists; there are no
    symbolic links, so a path is found under its cleaned form. *)
Definition dirs (ds : list string) : string -> StatKind :=
  fun q => if existsb (String.eqb (Clean q)) ds then StatDir else StatNotExist.

(** A host with working directory /home/u, the manifest [web_doc src]
    at /repo/cnd.yml, and the file system [fs]. *)
Definition host_env (src : string) (fs : string -> StatKind) : OS :=
  {| HOME := "/home/u"; Cwd := "/home/u"; GetwdFails := false; FS := fs;
     ReadFile := fun q => if q =? "/repo/cnd.yml" then Some (MDoc (web_doc src)) else None;
     StPath := "/home/u/.cnd/.state"; WriteFile := WriteOk |}.

(* ================================================================== *)
(** * Properties *)

Import Storage.

(* ------------------------------------------------------------------ *)
(** ** The state file round trip *)

Lemma decode_encode_service (svc : Service) :
  decode_service (encode_service svc) = Ok svc.
Proof.
  destruct svc as [fo sy]; unfold encode_service, omitempty; cbn [folder syncthing].
  destruct (String.eqb_spec fo ""), (String.eqb_spec sy ""); subst; reflexivity.
Qed.

Lemma decode_services_encode (l : list (string * Service)) (acc : gmap string Service) :
  NoDup l.*1 ->
  decode_services (map (fun kv => (kv.1, encode_service kv.2)) l) acc
  = Ok (list_to_map l ∪ acc).
Proof.
  revert acc; induction l as [|[k v] l IH]; intros acc Hnd; cbn [map decode_services fst snd list_to_map foldr].
  - by rewrite (left_id_L ∅ (∪)).
  - rewrite decode_encode_service.
    apply NoDup_cons in Hnd as [Hk Hnd].
    rewrite IH by done.
    change (k ∉ l.*1) in Hk.
    rewrite <- insert_union_l, <- insert_union_r; [done|].
    by apply not_elem_of_list_to_map_1.
Qed.

Lemma decode_encode_services (m : gmap string Service) :
  decode_services (encode_services m) ∅ = Ok m.
Proof.
  unfold encode_services.
  rewrite decode_services_encode by apply NoDup_fst_map_to_list.
  by rewrite (right_id_L ∅ (∪)), list_to_map_to_list.
Qed.

(** What [load] reads back from a file written by [save]: the session
    map as it was, and the version unless it was empty, which [omitempty]
    drops and [load] then defaults; the map is never nil. *)
Lemma load_encode (env : OS) (s : Storage) :
  load_file env (FContents (encode_storage s))
  = Ok {| path := StPath env;
          version := if version s =? "" then current_version else version s;
          services := services s; services_nil := false |}.
Proof.
  destruct s as [p v m n]; unfold load_file, encode_storage, omitempty; cbn [version services].
  destruct (Nat.eqb_spec (size m) 0) as [Hz|Hz].
  - apply map_size_empty_iff in Hz; subst m.
    destruct (String.eqb_spec v ""); subst; reflexivity.
  - destruct (String.eqb_spec v ""); subst; cbn;
      rewrite decode_encode_services; reflexivity.
Qed.

(** Decoding the fields of the document keeps [path], and keeps a nil map
    empty. *)
Lemma decode_storage_fields_inv (kvs : list (string * yaml)) (s s' : Storage) :
  decode_storage_fields kvs s = Ok s' ->
  path s' = path s /\
  ((services_nil s = true -> services s = ∅) -> services_nil s' = true -> services s' = ∅).
Proof.
  revert s; induction kvs as [|[k y] kvs IH]; intros s H; cbn [decode_storage_fields] in H.
  - injection H as <-; auto.
  - destruct (k =? "version").
    + destruct (decode_string y) as [v|e]; [|discriminate].
      apply IH in H as [Hp Hn]; cbn in Hp, Hn; auto.
    + destruct (k =? "services"); [|exact (IH s H)].
      destruct y as [| | |l]; try discriminate.
      * apply IH in H as [Hp Hn]; cbn in Hp, Hn; auto.
      * destruct (decode_services l (services s)); [|discriminate].
        apply IH in H as [Hp Hn]; cbn in Hp, Hn; split; [assumption|].
        intros _; apply Hn; discriminate.
Qed.

(** What [load] can return: a nil map has no entries, and the path is
    [stPath] unless the file is a null document. *)
Lemma load_inv (env : OS) (f : StFile) (s : Storage) :
  load_file env f = Ok s ->
  (services_nil s = true -> services s = ∅) /\
  (path s = StPath env \/ (f = FContents YNull /\ s = zero_storage)).
Proof.
  destruct f as [| | | |[| | |kvs]]; cbn; intros H; try discriminate;
    try (injection H as <-; split; [discriminate|left; reflexivity]).
  - injection H as <-; split; [reflexivity|right; auto].
  - apply decode_storage_fields_inv in H as [Hp Hn]; split.
    + apply Hn; discriminate.
    + left; exact Hp.
Qed.

Lemma load_path (env : OS) (f : StFile) (s : Storage) :
  load_file env f = Ok s -> services_nil s = false -> path s = StPath env.
Proof.
  intros H Hn; destruct (load_inv env f s H) as [_ [Hp|[_ ->]]]; [exact Hp|discriminate].
Qed.

(* ------------------------------------------------------------------ *)
(** ** The operations, one branch at a time *)

Lemma Service_eqb_spec (a b : Service) : Service_eqb a b = true <-> a = b.
Proof.
  destruct a as [fa sa], b as [fb sb]; unfold Service_eqb; cbn.
  rewrite andb_true_iff, !String.eqb_eq; split.
  - intros [-> ->]; reflexivity.
  - intros H; injection H; auto.
Qed.

Lemma assign_save_unfold (env : OS) (s : Storage) (k : string) (v : Service) (f : StFile) :
  (s' ← assign s k v; save env s') f = assign_save env s k v f.
Proof.
  unfold assign_save, assign, mbind, St_bind, panic, mret, St_ret.
  destruct (services_nil s); reflexivity.
Qed.

Lemma Insert_unfold (env : OS) (ns : string) (dev : Model.Dev) (h : string) (f : StFile) :
  Insert env ns dev h f =
  match load_file env f with
  | Err e => (Returned (Err e), f)
  | Ok s =>
      match newService env (Model.Source dev) h with
      | Err e => (Returned (Err e), f)
      | Ok svc =>
          let key := getFullName ns dev in
          match services s !! key with
          | Some svc2 =>
              if Service_eqb svc2 svc then (Returned (Ok tt), f)
              else if negb (syncthing svc2 =? "") then (Returned (Err ErrAlreadyRunning), f)
              else assign_save env s key svc f
          | None => assign_save env s key svc f
          end
      end
  end.
Proof.
  unfold Insert; unfold mbind at 1 2, St_bind at 1 2; unfold load, lift, mret, St_ret, throw.
  destruct (load_file env f); [|reflexivity].
  destruct (newService _ _ _); [|reflexivity].
  cbv zeta; rewrite <- !assign_save_unfold.
  destruct (_ !! _) as [svc2|]; [|reflexivity].
  destruct (Service_eqb _ _); [reflexivity|].
  destruct (negb (syncthing svc2 =? "")); reflexivity.
Qed.

Lemma Get_unfold (env : OS) (ns : string) (dev : Model.Dev) (f : StFile) :
  Get env ns dev f =
  match load_file env f with
  | Err e => (Returned (Err e), f)
  | Ok s =>
      match services s !! getFullName ns dev with
      | None => (Returned (Err (ErrNotFound (getFullName ns dev))), f)
      | Some svc => (Returned (Ok svc), f)
      end
  end.
Proof.
  unfold Get, mbind, St_bind, load, mret, St_ret, throw.
  destruct (load_file env f); [|reflexivity].
  destruct (_ !! _); reflexivity.
Qed.

Lemma Stop_unfold (env : OS) (ns : string) (dev : Model.Dev) (f : StFile) :
  Stop env ns dev f =
  match load_file env f with
  | Err e => (Returned (Err e), f)
  | Ok s =>
      match services s !! getFullName ns dev with
      | Some svc =>
          assign_save env s (getFullName ns dev) {| folder := folder svc; syncthing := "" |} f
      | None => (Returned (Ok tt), f)
      end
  end.
Proof.
  unfold Stop; unfold mbind at 1, St_bind at 1; unfold load, mret, St_ret.
  destruct (load_file env f); [|reflexivity].
  destruct (_ !! _); [apply assign_save_unfold|reflexivity].
Qed.

Lemma Delete_unfold (env : OS) (ns : string) (dev : Model.Dev) (f : StFile) :
  Delete env ns dev f =
  match load_file env f with
  | Err e => (Returned (Err e), f)
  | Ok s => save env (set_services s (delete (getFullName ns dev) (services s))) f
  end.
Proof.
  unfold Delete, mbind, St_bind, load.
  destruct (load_file env f); reflexivity.
Qed.

Lemma save_ok (env : OS) (s : Storage) (f : StFile) :
  Writable env = true -> path s = StPath env ->
  save env s f = (Returned (Ok tt), FContents (encode_storage s)).
Proof.
  unfold Writable, save; intros Hw Hp; rewrite Hp, String.eqb_refl.
  destruct (WriteFile env); [reflexivity|discriminate..].
Qed.

Lemma save_inv (env : OS) (s : Storage) (f f' : StFile) (r : Outcome unit) :
  save env s f = (r, f') ->
  (r = Returned (Ok tt) /\ f' = FContents (encode_storage s))
  \/ (r = Returned (Err ErrWriteStorage) /\ (f' = f \/ WriteFile env = WriteFails f')).
Proof.
  unfold save; destruct (path s =? StPath env); [destruct (WriteFile env) eqn:Hw|];
    intros H; injection H; intros; subst; auto.
Qed.

Lemma assign_save_inv (env : OS) (s : Storage) (k : string) (v : Service) (f f' : StFile)
    (r : Outcome unit) :
  assign_save env s k v f = (r, f') ->
  (r = Returned (Ok tt) /\
   f' = FContents (encode_storage (set_services s (<[k := v]> (services s)))))
  \/ (r = Returned (Err ErrWriteStorage) /\ (f' = f \/ WriteFile env = WriteFails f'))
  \/ (r = Panicked nil_map_panic /\ f' = f).
Proof.
  unfold assign_save; destruct (services_nil s).
  - intros H; injection H; intros; subst; auto.
  - intros H; apply save_inv in H as [?|?]; auto.
Qed.

Lemma assign_save_ok (env : OS) (s : Storage) (k : string) (v : Service) (f : StFile) :
  services_nil s = false -> Writable env = true -> path s = StPath env ->
  assign_save env s k v f
  = (Returned (Ok tt), FContents (encode_storage (set_services s (<[k := v]> (services s))))).
Proof. intros Hn Hw Hp; unfold assign_save; rewrite Hn; apply save_ok; assumption. Qed.

(** After a successful [Insert] the file holds the new service at its key. *)
Lemma Insert_ok_inv (env : OS) (ns : string) (dev : Model.Dev) (h : string) (f f' : StFile) :
  Insert env ns dev h f = (Returned (Ok tt), f') ->
  exists svc s',
    newService env (Model.Source dev) h = Ok svc /\
    load_file env f' = Ok s' /\ services s' !! getFullName ns dev = Some svc.
Proof.
  rewrite Insert_unfold.
  destruct (load_file env f) as [s|e] eqn:Hl; [|discriminate].
  destruct (newService _ _ _) as [svc|e] eqn:Hn; [|discriminate].
  cbv zeta.
  assert (Hup : assign_save env s (getFullName ns dev) svc f = (Returned (Ok tt), f') ->
                exists s', load_file env f' = Ok s' /\ services s' !! getFullName ns dev = Some svc).
  { intros Hs; apply assign_save_inv in Hs as [[_ ->]|[[? _]|[? _]]]; try discriminate.
    rewrite load_encode; eexists; split; [reflexivity|]; cbn.
    apply lookup_insert_eq. }
  destruct (services s !! getFullName ns dev) as [svc2|] eqn:Hk.
  - destruct (Service_eqb svc2 svc) eqn:He.
    + intros H; injection H; intros <-.
      apply Service_eqb_spec in He; subst svc2; eauto.
    + destruct (negb _); [discriminate|].
      intros Hs; destruct (Hup Hs) as [s' ?]; eauto.
  - intros Hs; destruct (Hup Hs) as [s' ?]; eauto.
Qed.

(* ------------------------------------------------------------------ *)
(** ** Insert *)





(** C2 (as amended): once [Insert] has succeeded, the same call again
    succeeds and leaves the state file exactly as it is (it writes
    nothing). *)
Theorem Insert_idempotent (env : OS) (ns : string) (dev : Model.Dev) (h : string)
    (f f1 : StFile) :
  Insert env ns dev h f = (Returned (Ok tt), f1) ->
  Insert env ns dev h f1 = (Returned (Ok tt), f1).
Proof.
  intros H1.
  destruct (Insert_ok_inv env ns dev h f f1 H1) as (svc & s' & Hn & Hl & Hk).
  rewrite Insert_unfold, Hl, Hn; cbv zeta; rewrite Hk.
  rewrite (proj2 (Service_eqb_spec svc svc) eq_refl); reflexivity.
Qed.

(** C2, as stated, fails: while another handle is running at the key,
    the first call already fails. *)
Lemma Insert_twice_conflict :
  Insert env0 "default" web "host:5555" (one_service "/work/web" "host:1234")
    = (Returned (Err ErrAlreadyRunning), one_service "/work/web" "host:1234").
Proof. vm_compute; reflexivity. Qed.

Lemma Insert_idempotent_witness :
  Insert env0 "default" web "host:1234" FMissing
    = (Returned (Ok tt), snd (Insert env0 "default" web "host:1234" FMissing)) /\
  Insert env0 "default" web "host:1234" (snd (Insert env0 "default" web "host:1234" FMissing))
    = (Returned (Ok tt), snd (Insert env0 "default" web "host:1234" FMissing)).
Proof.
  split; [reflexivity|].
  apply (Insert_idempotent env0 "default" web "host:1234" FMissing); reflexivity.
Defined.

(** C3: after a successful [Insert], [Get] returns the record whose
    folder is the source path as [newService] resolves it and whose
    handle is the inserted one. *)
Theorem Insert_then_Get (env : OS) (ns : string) (dev : Model.Dev) (h : string)
    (f f' : StFile) :
  Insert env ns dev h f = (Returned (Ok tt), f') ->
  exists absFolder,
    Storage.fixPath env (Model.Source dev) = Ok absFolder /\
    Get env ns dev f' = (Returned (Ok {| folder := absFolder; syncthing := h |}), f').
Proof.
  intros H1.
  destruct (Insert_ok_inv env ns dev h f f' H1) as (svc & s' & Hn & Hl & Hk).
  unfold newService in Hn.
  destruct (Storage.fixPath env (Model.Source dev)) as [absFolder|e]; [|discriminate].
  injection Hn as <-.
  exists absFolder; split; [reflexivity|].
  rewrite Get_unfold, Hl, Hk; reflexivity.
Qed.

Lemma Insert_then_Get_witness :
  Insert env0 "default" (mkDev "web" "app" "src") "host:1234" FMissing
    = (Returned (Ok tt), snd (Insert env0 "default" (mkDev "web" "app" "src") "host:1234" FMissing)) /\
  exists absFolder,
    Storage.fixPath env0 "src" = Ok absFolder /\
    Get env0 "default" (mkDev "web" "app" "src")
        (snd (Insert env0 "default" (mkDev "web" "app" "src") "host:1234" FMissing))
      = (Returned (Ok {| folder := absFolder; syncthing := "host:1234" |}),
         snd (Insert env0 "default" (mkDev "web" "app" "src") "host:1234" FMissing)).
Proof.
  split; [reflexivity|].
  apply (Insert_then_Get env0 "default" (mkDev "web" "app" "src") "host:1234" FMissing).
  reflexivity.
Defined.

(* ------------------------------------------------------------------ *)
(** ** Stop and Delete *)

(** C4: on a loaded state file, [Stop] on a key with a record writes the
    map with that record's handle cleared and its folder kept, every other
    entry as it was, so that [Get] then shows the cleared handle; on a key
    with no record it succeeds and writes nothing. *)
Theorem Stop_clears_handle (env : OS) (ns : string) (dev : Model.Dev) (f : StFile) (s : Storage) :
  load_file env f = Ok s ->
  let key := getFullName ns dev in
  (forall svc, services s !! key = Some svc -> Writable env = true ->
   exists f', Stop env ns dev f = (Returned (Ok tt), f') /\
   (exists s', load_file env f' = Ok s' /\
      services s' = <[key := {| folder := folder svc; syncthing := "" |}]> (services s)) /\
   Get env ns dev f' = (Returned (Ok {| folder := folder svc; syncthing := "" |}), f')) /\
  (services s !! key = None -> Stop env ns dev f = (Returned (Ok tt), f)).
Proof.
  intros Hl key; split.
  - intros svc Hk Hw.
    assert (Hns : services_nil s = false).
    { destruct (load_inv env f s Hl) as [Hnil _].
      destruct (services_nil s) eqn:E; [|reflexivity].
      rewrite (Hnil eq_refl), lookup_empty in Hk; discriminate. }
    rewrite Stop_unfold, Hl; fold key; rewrite Hk.
    rewrite assign_save_ok by (try apply (load_path env f); assumption).
    eexists; split; [reflexivity|]; split.
    + rewrite load_encode; eexists; split; reflexivity.
    + rewrite Get_unfold, load_encode; fold key; cbn [services set_services].
      by rewrite lookup_insert_eq.
  - intros Hk; rewrite Stop_unfold, Hl; fold key; rewrite Hk; reflexivity.
Qed.

Lemma Stop_clears_handle_witness :
  Stop env0 "default" web (one_service "/work/web" "host:1234")
    = (Returned (Ok tt), snd (Stop env0 "default" web (one_service "/work/web" "host:1234"))) /\
  Stop env0 "default" (mkDev "web" "other" "/work/web") (one_service "/work/web" "host:1234")
    = (Returned (Ok tt), one_service "/work/web" "host:1234").
Proof.
  pose proof (Stop_clears_handle env0 "default" web (one_service "/work/web" "host:1234")
    {| path := StPath env0; version := current_version;
       services := {[ "default/web/app" := {| folder := "/work/web"; syncthing := "host:1234" |} ]};
       services_nil := false |}
    eq_refl) as [H1 _].
  pose proof (Stop_clears_handle env0 "default" (mkDev "web" "other" "/work/web")
    (one_service "/work/web" "host:1234")
    {| path := StPath env0; version := current_version;
       services := {[ "default/web/app" := {| folder := "/work/web"; syncthing := "host:1234" |} ]};
       services_nil := false |}
    eq_refl) as [_ H2].
  split.
  - destruct (H1 _ eq_refl eq_refl) as (f' & Hs & _).
    rewrite Hs; reflexivity.
  - apply H2; reflexivity.
Defined.




(* ------------------------------------------------------------------ *)
(** ** The session key *)

Lemma append_slash_inj (a a' b b' : string) :
  has_slash a = false -> has_slash a' = false ->
  a ++ String "/" b = a' ++ String "/" b' -> a = a' /\ b = b'.
Proof.
  revert a'; induction a as [|c a IH]; intros [|c' a'] Ha Ha' H; cbn in *.
  - injection H; auto.
  - injection H as Hc _; subst c'; discriminate.
  - injection H as Hc _; subst c; discriminate.
  - apply orb_false_iff in Ha as [_ Ha], Ha' as [_ Ha'].
    injection H as -> H.
    destruct (IH a' Ha Ha' H) as [-> ->]; auto.
Qed.

(** C6 (as amended): when neither namespace nor deployment name contains
    "/", keys of two specs that differ in namespace, deployment name or
    container are distinct. *)
Theorem getFullName_injective (ns ns' : string) (d d' : Model.Dev) :
  has_slash ns = false -> has_slash ns' = false ->
  has_slash (Model.Name d) = false -> has_slash (Model.Name d') = false ->
  ns <> ns' \/ Model.Name d <> Model.Name d' \/ Model.Container d <> Model.Container d' ->
  getFullName ns d <> getFullName ns' d'.
Proof.
  intros Hn Hn' Hd Hd' Hdiff Heq; unfold getFullName in Heq; cbn [append] in Heq.
  destruct (append_slash_inj _ _ _ _ Hn Hn' Heq) as [<- Heq2]; cbn [append] in Heq2.
  destruct (append_slash_inj _ _ _ _ Hd Hd' Heq2) as [Hname Hcont].
  intuition.
Qed.

(** C6, as stated, fails: the separator may occur inside a component. *)
Lemma getFullName_slash_collision :
  "a/b" <> "a" /\
  getFullName "a/b" (mkDev "c" "d" "/x") = getFullName "a" (mkDev "b/c" "d" "/x").
Proof. split; [discriminate|reflexivity]. Qed.

Lemma getFullName_injective_witness :
  getFullName "default" (mkDev "web" "app" "/x") <> getFullName "default" (mkDev "web" "sidecar" "/x").
Proof.
  apply getFullName_injective; try reflexivity.
  right; right; discriminate.
Defined.

(* ------------------------------------------------------------------ *)
(** ** Saving and loading *)

(** C7 (as amended): after a successful [save] of [r], [load] returns
    [r]'s session map exactly, and [r]'s version unless it is empty, in
    which case the [omitempty] tag drops it and [load] yields "1.0". *)
Theorem save_then_load (env : OS) (r : Storage) (f f' : StFile) :
  save env r f = (Returned (Ok tt), f') ->
  fst (load env f') =
    Returned (Ok {| path := StPath env;
                    version := if version r =? "" then current_version else version r;
                    services := services r; services_nil := false |}).
Proof.
  intros Hs; apply save_inv in Hs as [[_ ->]|[? _]]; [|discriminate].
  cbn [load fst]; rewrite load_encode; reflexivity.
Qed.

(** C7, as stated, fails for an empty version. *)
Lemma save_then_load_empty_version :
  save env0 {| path := StPath env0; version := ""; services := ∅; services_nil := false |} FMissing
    = (Returned (Ok tt), FContents (YMap [])) /\
  fst (load env0 (FContents (YMap []))) = Returned (Ok (fresh env0)) /\
  version (fresh env0) <> "".
Proof. split; [|split]; [reflexivity|reflexivity|discriminate]. Qed.

Lemma save_then_load_witness :
  fst (load env0 (snd (save env0 {| path := StPath env0; version := "1.0"; services :=
         {[ "default/web/app" := {| folder := "/work/web"; syncthing := "host:1234" |} ]};
         services_nil := false |} FMissing)))
  = Returned (Ok {| path := StPath env0; version := "1.0"; services :=
         {[ "default/web/app" := {| folder := "/work/web"; syncthing := "host:1234" |} ]};
         services_nil := false |}).
Proof.
  exact (save_then_load env0
    {| path := StPath env0; version := "1.0"; services :=
         {[ "default/web/app" := {| folder := "/work/web"; syncthing := "host:1234" |} ]};
       services_nil := false |}
    FMissing _ eq_refl).
Defined.

(* ------------------------------------------------------------------ *)
(** ** The manifest: validation and path resolution *)

(** C8: [ReadDev] runs [validate] before [fixPath], so [os.Stat] sees
    the source as written, relative to the working directory, not the
    source resolved against the manifest's directory.  With the manifest
    at /repo/cnd.yml, source "./a" and working directory /home/u: when
    /repo/a is a directory and /home/u/a does not exist, [ReadDev] fails
    with "source missing"; when only /home/u/a is a directory, it succeeds
    and returns the source /repo/a, which does not exist. *)
Theorem ReadDev_checks_unresolved_source :
  Model.ReadDev (host_env "./a" (dirs ["/repo/a"])) "/repo/cnd.yml"
    = Returned (Err (ErrSourceMissing "./a")) /\
  FS (host_env "./a" (dirs ["/repo/a"])) "/repo/a" = StatDir /\
  match Model.ReadDev (host_env "./a" (dirs ["/home/u/a"])) "/repo/cnd.yml" with
  | Returned (Ok d) =>
      Model.Source d = "/repo/a" /\
      FS (host_env "./a" (dirs ["/home/u/a"])) (Model.Source d) = StatNotExist
  | _ => False
  end.
Proof. split; [|split]; vm_compute; auto. Qed.

(** C10: when [os.Stat] fails with an error other than "not exist" (a
    permission error, say), [validate] calls [Mode] on the nil file
    information, and [ReadDev] panics. *)
Theorem ReadDev_stat_error_panics :
  Model.ReadDev (host_env "/secret/src"
             (fun q => if q =? "/secret/src" then StatError else StatNotExist))
          "/repo/cnd.yml"
    = Panicked "invalid memory address or nil pointer dereference".
Proof. vm_compute; reflexivity. Qed.

(** C9: the two examples of the spec, and the general rule: an absolute
    source is kept; a relative one is joined to the manifest's directory,
    itself first prefixed by the working directory when the manifest path
    is relative. *)
Theorem source_resolution :
  (forall (env : OS) (doc : DevDoc) (devPath : string),
     HOME env = "/home/u" -> doc_source doc = Some "~/x" ->
     exists d, Model.loadDev env (MDoc doc) = Ok d /\
               Model.Source (Model.fixPath env d devPath) = "/home/u/x") /\
  (forall (env : OS) (d : Model.Dev),
     Model.Source d = "./a" ->
     Model.Source (Model.fixPath env d "/repo/cnd.yml") = "/repo/a") /\
  (forall (env : OS) (d : Model.Dev) (devPath : string),
     GetwdFails env = false ->
     Model.Source (Model.fixPath env d devPath)
     = if IsAbs (Model.Source d) then Model.Source d
       else if IsAbs devPath then Join [Dir devPath; Model.Source d]
       else Join [Cwd env; Dir devPath; Model.Source d]).
Proof.
  split; [|split].
  - intros env doc devPath Hh Hs.
    unfold Model.loadDev, Model.unmarshal_dev; rewrite Hs; cbn.
    rewrite Hh; eexists; split; reflexivity.
  - intros env d Hs; unfold Model.fixPath; rewrite Hs; reflexivity.
  - intros env d devPath Hw; unfold Model.fixPath, Getwd; rewrite Hw.
    destruct (IsAbs (Model.Source d)), (IsAbs devPath); reflexivity.
Qed.

Lemma source_resolution_witness :
  (exists d, Model.loadDev env0 (MDoc (web_doc "~/x")) = Ok d /\
             Model.Source (Model.fixPath env0 d "/repo/cnd.yml") = "/home/u/x") /\
  Model.Source (Model.fixPath env0 (mkDev "web" "app" "./a") "/repo/cnd.yml") = "/repo/a" /\
  Model.Source (Model.fixPath env0 (mkDev "web" "app" "a") "cnd.yml")
    = Join ["/home/u"; "."; "a"].
Proof.
  destruct source_resolution as (H1 & H2 & H3).
  split; [|split].
  - exact (H1 env0 (web_doc "~/x") "/repo/cnd.yml" eq_refl eq_refl).
  - exact (H2 env0 (mkDev "web" "app" "./a") eq_refl).
  - exact (H3 env0 (mkDev "web" "app" "a") "cnd.yml" eq_refl).
Defined.

(* ================================================================== *)
(** * Further properties of the code *)

(* ------------------------------------------------------------------ *)
(** ** Rooted paths *)

Lemma IsAbs_String_slash (p : string) : IsAbs (String "/" p) = true.
Proof. destruct p; reflexivity. Qed.

Lemma IsAbs_inv (p : string) : IsAbs p = true -> exists p', p = String "/" p'.
Proof.
  destruct p as [|c p']; [discriminate|]; unfold IsAbs, HasPrefix; fold HasPrefix.
  intros Hc; apply andb_true_iff in Hc as [Hc _]; apply Ascii.eqb_eq in Hc; subst; eauto.
Qed.

Lemma IsAbs_app (p q : string) : IsAbs p = true -> IsAbs (p ++ q) = true.
Proof. intros Hp; destruct (IsAbs_inv p Hp) as [p' ->]; apply IsAbs_String_slash. Qed.

Lemma Clean_rooted (p : string) : IsAbs p = true -> IsAbs (Clean p) = true.
Proof. intros Hp; unfold Clean; cbv zeta; rewrite Hp; apply IsAbs_String_slash. Qed.

Lemma Join_rooted (a : string) (rest : list string) :
  IsAbs a = true -> IsAbs (Join (a :: rest)) = true.
Proof.
  intros Ha; destruct (IsAbs_inv a Ha) as [a' ->]; cbn [Join].
  apply Clean_rooted.
  destruct rest; cbn [join_slash]; [apply IsAbs_String_slash|].
  apply IsAbs_app, IsAbs_String_slash.
Qed.

Lemma Dir_rooted (p : string) : IsAbs p = true -> IsAbs (Dir p) = true.
Proof.
  intros Hp; destruct (IsAbs_inv p Hp) as [p' ->]; unfold Dir.
  apply Clean_rooted; cbn [split_dir].
  destruct (split_dir p' =? ""); apply IsAbs_String_slash.
Qed.

(* ------------------------------------------------------------------ *)
(** ** ReadDev *)

Lemma fixPath_Name (env : OS) (d : Model.Dev) (p : string) :
  Model.Name (Model.fixPath env d p) = Model.Name d.
Proof.
  unfold Model.fixPath; destruct (negb _); [destruct (IsAbs p)|]; reflexivity.
Qed.

Lemma ReadDev_ok_inv (env : OS) (p : string) (d : Model.Dev) :
  Model.ReadDev env p = Returned (Ok d) ->
  exists b d0, ReadFile env p = Some b /\ Model.loadDev env b = Ok d0 /\
    Model.validate env d0 = Returned (Ok tt) /\ d = Model.fixPath env d0 p.
Proof.
  unfold Model.ReadDev.
  destruct (ReadFile env p) as [b|] eqn:Hr; [|discriminate].
  destruct (Model.loadDev env b) as [d0|e] eqn:Hl; [|discriminate].
  destruct (Model.validate env d0) as [[[]|e]|m] eqn:Hv; intros H; try discriminate.
  injection H as <-; exists b, d0; repeat split; assumption.
Qed.

(** [ReadDev] never returns a manifest whose deployment name is empty. *)
Theorem ReadDev_name_nonempty (env : OS) (p : string) (d : Model.Dev) :
  Model.ReadDev env p = Returned (Ok d) -> Model.Name d <> "".
Proof.
  intros H; destruct (ReadDev_ok_inv env p d H) as (b & d0 & _ & _ & Hv & ->).
  rewrite fixPath_Name; unfold Model.validate in Hv.
  destruct (Stat env (Model.Source d0)); try discriminate.
  destruct (String.eqb_spec (Model.Name d0) ""); [discriminate|assumption].
Qed.

(** The source [ReadDev] returns is absolute when the manifest path is
    absolute, or when the working directory is absolute and [os.Getwd]
    succeeds. *)
Theorem ReadDev_source_absolute (env : OS) (p : string) (d : Model.Dev) :
  IsAbs p = true \/ (GetwdFails env = false /\ IsAbs (Cwd env) = true) ->
  Model.ReadDev env p = Returned (Ok d) ->
  IsAbs (Model.Source d) = true.
Proof.
  intros Hp H; destruct (ReadDev_ok_inv env p d H) as (b & d0 & _ & _ & _ & ->).
  unfold Model.fixPath, Getwd.
  destruct (IsAbs (Model.Source d0)) eqn:Hs; cbn [negb]; [exact Hs|].
  destruct (IsAbs p) eqn:Hp'.
  - apply Join_rooted, Dir_rooted, Hp'.
  - destruct Hp as [Hp|[Hw Hc]]; [congruence|]; rewrite Hw.
    apply Join_rooted, Hc.
Qed.

Lemma ReadDev_source_absolute_witness :
  Model.ReadDev (host_env "./a" (dirs ["/home/u/a"])) "/repo/cnd.yml"
    = Returned (Ok (Model.fixPath (host_env "./a" (dirs ["/home/u/a"]))
                      (mkDev "web" "app" "./a") "/repo/cnd.yml")) /\
  IsAbs (Model.Source (Model.fixPath (host_env "./a" (dirs ["/home/u/a"]))
                      (mkDev "web" "app" "./a") "/repo/cnd.yml")) = true.
Proof.
  split; [reflexivity|].
  apply (ReadDev_source_absolute (host_env "./a" (dirs ["/home/u/a"])) "/repo/cnd.yml");
    [left; reflexivity | reflexivity].
Defined.

Lemma ReadDev_name_nonempty_witness :
  Model.ReadDev (host_env "./a" (dirs ["/home/u/a"])) "/repo/cnd.yml"
    = Returned (Ok (Model.fixPath (host_env "./a" (dirs ["/home/u/a"]))
                      (mkDev "web" "app" "./a") "/repo/cnd.yml")) /\
  Model.Name (Model.fixPath (host_env "./a" (dirs ["/home/u/a"]))
                (mkDev "web" "app" "./a") "/repo/cnd.yml") <> "".
Proof.
  split; [reflexivity|].
  apply (ReadDev_name_nonempty (host_env "./a" (dirs ["/home/u/a"])) "/repo/cnd.yml").
  reflexivity.
Defined.

Lemma fixPath_abs (env : OS) (d : Model.Dev) (p : string) :
  IsAbs (Model.Source d) = true -> Model.fixPath env d p = d.
Proof. intros H; unfold Model.fixPath; rewrite H; reflexivity. Qed.

Lemma loadDev_home (env : OS) (doc : DevDoc) (src : string) :
  doc_source doc = Some src ->
  HasPrefix src "~/" = true ->
  exists d0, Model.loadDev env (MDoc doc) = Ok d0 /\
    Model.Source d0 = Join [HOME env; substring 2 (String.length src - 2) src].
Proof.
  intros Hs Hp; unfold Model.loadDev.
  assert (E : forall d, Model.Source (Model.unmarshal_dev doc d) = src)
    by (intros d; unfold Model.Source, Model.unmarshal_dev; cbn; rewrite Hs; reflexivity).
  rewrite E, Hp; eexists; split; reflexivity.
Qed.

(** A source starting with "~/" is replaced by HOME joined with the rest;
    when HOME is absolute, [fixPath] keeps it, wherever the manifest is. *)
Theorem ReadDev_home_source (env : OS) (p : string) (doc : DevDoc) (src : string)
    (d : Model.Dev) :
  IsAbs (HOME env) = true ->
  ReadFile env p = Some (MDoc doc) ->
  doc_source doc = Some src ->
  HasPrefix src "~/" = true ->
  Model.ReadDev env p = Returned (Ok d) ->
  Model.Source d = Join [HOME env; substring 2 (String.length src - 2) src].
Proof.
  intros Hh Hr Hs Hp H.
  destruct (ReadDev_ok_inv env p d H) as (b & d0 & Hr' & Hl & _ & ->).
  rewrite Hr in Hr'; injection Hr' as <-.
  destruct (loadDev_home env doc src Hs Hp) as (d1 & Hl1 & Hsrc).
  rewrite Hl1 in Hl; injection Hl as <-.
  rewrite fixPath_abs; [exact Hsrc|].
  rewrite Hsrc; apply Join_rooted, Hh.
Qed.

Lemma ReadDev_home_source_witness :
  Model.ReadDev (host_env "~/proj" (dirs ["/home/u/proj"])) "/repo/cnd.yml"
    = Returned (Ok (Model.set_source (mkDev "web" "app" "~/proj") "/home/u/proj")) /\
  Model.Source (Model.set_source (mkDev "web" "app" "~/proj") "/home/u/proj")
    = Join ["/home/u"; "proj"].
Proof.
  split; [reflexivity|].
  exact (ReadDev_home_source (host_env "~/proj" (dirs ["/home/u/proj"])) "/repo/cnd.yml"
           (web_doc "~/proj") "~/proj" _ eq_refl eq_refl eq_refl eq_refl eq_refl).
Defined.

(* ------------------------------------------------------------------ *)
(** ** Derived names *)

Lemma prefix_cancel (p x y : string) : p ++ x = p ++ y -> x = y.
Proof. induction p as [|c p IH]; cbn; [auto|]; intros H; injection H; auto. Qed.

Lemma HasPrefix_app (p x : string) : HasPrefix (p ++ x) p = true.
Proof.
  induction p as [|c p IH]; [destruct x; reflexivity|].
  change (Ascii.eqb c c && HasPrefix (p ++ x) p = true).
  rewrite Ascii.eqb_refl, IH; reflexivity.
Qed.

(** Each derived name determines the container it was built from; the
    annotation key starts with [CNDManifestAnnotationPrefix]; an init sync
    container name is never the sync container's name nor a sync volume
    name. *)
Theorem derived_names (d d' : Model.Dev) :
  (Model.GetCNDManifestAnnotation d = Model.GetCNDManifestAnnotation d' ->
   Model.Container d = Model.Container d') /\
  (Model.GetCNDInitSyncContainer d = Model.GetCNDInitSyncContainer d' ->
   Model.Container d = Model.Container d') /\
  (Model.GetCNDSyncVolume d = Model.GetCNDSyncVolume d' ->
   Model.Container d = Model.Container d') /\
  (Model.GetCNDSyncMount d = Model.GetCNDSyncMount d' ->
   Model.Container d = Model.Container d') /\
  HasPrefix (Model.GetCNDManifestAnnotation d) Model.CNDManifestAnnotationPrefix = true /\
  Model.GetCNDInitSyncContainer d <> Model.CNDSyncContainer /\
  Model.GetCNDInitSyncContainer d <> Model.GetCNDSyncVolume d'.
Proof.
  unfold Model.GetCNDManifestAnnotation, Model.GetCNDInitSyncContainer,
    Model.GetCNDSyncVolume, Model.GetCNDSyncMount, Model.CNDSyncContainer.
  repeat split; try apply prefix_cancel; try apply HasPrefix_app; cbn; discriminate.
Qed.

Lemma derived_names_witness :
  Model.Container (mkDev "web" "app" "/x") = Model.Container (mkDev "api" "app" "/y").
Proof.
  apply (proj1 (proj2 (derived_names (mkDev "web" "app" "/x") (mkDev "api" "app" "/y")))).
  reflexivity.
Defined.

(* ------------------------------------------------------------------ *)
(** ** Storage operations: failures, frames and composition *)

(** A call of [Insert], [Stop] or [Delete] that fails, with an error or a
    panic, leaves the state file as it was, except when [ioutil.WriteFile]
    fails after truncating it: the call then returns the write error and
    the file is what that write left. *)
Theorem ops_error_atomic (env : OS) (ns : string) (dev : Model.Dev) (h : string)
    (f f' : StFile) :
  let kept (r : Outcome unit) :=
    f' = f \/ (r = Returned (Err ErrWriteStorage) /\ WriteFile env = WriteFails f') in
  (forall r, Insert env ns dev h f = (r, f') -> r <> Returned (Ok tt) -> kept r) /\
  (forall r, Stop env ns dev f = (r, f') -> r <> Returned (Ok tt) -> kept r) /\
  (forall r, Delete env ns dev f = (r, f') -> r <> Returned (Ok tt) -> kept r).
Proof.
  intros kept.
  assert (Hsave : forall s r, save env s f = (r, f') -> r <> Returned (Ok tt) -> kept r).
  { intros s r Hs Hr; apply save_inv in Hs as [[-> _]|[-> [->|Hw]]];
      [congruence|left; reflexivity|right; auto]. }
  assert (Has : forall s k v r, assign_save env s k v f = (r, f') -> r <> Returned (Ok tt) ->
                kept r).
  { intros s k v r Hs Hr; apply assign_save_inv in Hs as [[-> _]|[[-> [->|Hw]]|[-> ->]]];
      [congruence|left; reflexivity|right; auto|left; reflexivity]. }
  split; [|split]; intros r.
  - rewrite Insert_unfold.
    destruct (load_file env f) as [s|]; [|intros H _; injection H; intros; left; auto].
    destruct (newService _ _ _) as [svc|]; [|intros H _; injection H; intros; left; auto].
    cbv zeta; destruct (_ !! _) as [svc2|]; [|apply Has].
    destruct (Service_eqb svc2 svc); [intros H _; injection H; intros; left; auto|].
    destruct (negb _); [intros H _; injection H; intros; left; auto|apply Has].
  - rewrite Stop_unfold.
    destruct (load_file env f) as [s|]; [|intros H _; injection H; intros; left; auto].
    destruct (_ !! _); [apply Has|intros H _; injection H; intros; left; auto].
  - rewrite Delete_unfold.
    destruct (load_file env f) as [s|]; [apply Hsave|intros H _; injection H; intros; left; auto].
Qed.

Lemma ops_error_atomic_witness :
  (Insert env0 "default" web "host:5555" (one_service "/work/web" "host:1234")
     = (Returned (Err ErrAlreadyRunning), one_service "/work/web" "host:1234") /\
   (one_service "/work/web" "host:1234" = one_service "/work/web" "host:1234" \/
    (@Returned unit (Err ErrAlreadyRunning) = Returned (Err ErrWriteStorage) /\
     WriteFile env0 = WriteFails (one_service "/work/web" "host:1234")))) /\
  (Delete env_trunc "default" web (one_service "/work/web" "host:1234")
     = (Returned (Err ErrWriteStorage), FEmpty) /\
   (FEmpty = one_service "/work/web" "host:1234" \/
    (@Returned unit (Err ErrWriteStorage) = Returned (Err ErrWriteStorage) /\
     WriteFile env_trunc = WriteFails FEmpty))).
Proof.
  assert (H1 : Insert env0 "default" web "host:5555" (one_service "/work/web" "host:1234")
              = (Returned (Err ErrAlreadyRunning), one_service "/work/web" "host:1234"))
    by (vm_compute; reflexivity).
  assert (H2 : Delete env_trunc "default" web (one_service "/work/web" "host:1234")
              = (Returned (Err ErrWriteStorage), FEmpty))
    by (vm_compute; reflexivity).
  split; split; [exact H1| |exact H2|].
  - exact (proj1 (ops_error_atomic env0 "default" web "host:5555" _ _) _ H1 ltac:(discriminate)).
  - exact (proj2 (proj2 (ops_error_atomic env_trunc "default" web "" _ _)) _ H2
             ltac:(discriminate)).
Defined.

(** [Insert], [Stop] and [Delete] change no record other than the one at
    their own key. *)
Theorem ops_frame (env : OS) (ns : string) (dev : Model.Dev) (h : string)
    (f : StFile) (s : Storage) (k : string) :
  load_file env f = Ok s -> k <> getFullName ns dev ->
  (forall f', Insert env ns dev h f = (Returned (Ok tt), f') ->
     exists s', load_file env f' = Ok s' /\ services s' !! k = services s !! k) /\
  (forall f', Stop env ns dev f = (Returned (Ok tt), f') ->
     exists s', load_file env f' = Ok s' /\ services s' !! k = services s !! k) /\
  (forall f', Delete env ns dev f = (Returned (Ok tt), f') ->
     exists s', load_file env f' = Ok s' /\ services s' !! k = services s !! k).
Proof.
  intros Hl Hk.
  assert (Hsave : forall m f', (m : gmap string Service) !! k = services s !! k ->
            save env (set_services s m) f = (Returned (Ok tt), f') ->
            exists s', load_file env f' = Ok s' /\ services s' !! k = services s !! k).
  { intros m f' Hm Hs; apply save_inv in Hs as [[_ ->]|[Hs _]]; [|discriminate].
    rewrite load_encode; eexists; split; [reflexivity|exact Hm]. }
  assert (Has : forall v f', assign_save env s (getFullName ns dev) v f = (Returned (Ok tt), f') ->
            exists s', load_file env f' = Ok s' /\ services s' !! k = services s !! k).
  { intros v f' Hs; apply assign_save_inv in Hs as [[_ ->]|[[Hs _]|[Hs _]]]; try discriminate.
    rewrite load_encode; eexists; split; [reflexivity|].
    apply lookup_insert_ne; congruence. }
  repeat split.
  - intros f'; rewrite Insert_unfold, Hl.
    destruct (newService _ _ _) as [svc|]; [|discriminate].
    cbv zeta.
    destruct (services s !! getFullName ns dev) as [svc2|]; [|apply Has].
    destruct (Service_eqb svc2 svc).
    + intros H; injection H as <-; eauto.
    + destruct (negb _); [discriminate|apply Has].
  - intros f'; rewrite Stop_unfold, Hl.
    destruct (services s !! getFullName ns dev) as [svc|]; [apply Has|].
    intros H; injection H as <-; eauto.
  - intros f'; rewrite Delete_unfold, Hl.
    apply Hsave, lookup_delete_ne; congruence.
Qed.

Lemma ops_frame_witness :
  (exists s', load_file env0 (snd (Insert env0 "default" (mkDev "db" "app" "/work/db") "host:3"
                                     two_services)) = Ok s' /\
     services s' !! "default/api/app" = Some {| folder := "/work/api"; syncthing := "host:1" |}) /\
  (exists s', load_file env0 (snd (Stop env0 "default" web two_services)) = Ok s' /\
     services s' !! "default/api/app" = Some {| folder := "/work/api"; syncthing := "host:1" |}) /\
  (exists s', load_file env0 (snd (Delete env0 "default" web two_services)) = Ok s' /\
     services s' !! "default/api/app" = Some {| folder := "/work/api"; syncthing := "host:1" |}).
Proof.
  assert (Hl : load_file env0 two_services = Ok two_services_loaded) by reflexivity.
  assert (Ha : services two_services_loaded !! "default/api/app"
               = Some {| folder := "/work/api"; syncthing := "host:1" |}) by reflexivity.
  destruct (ops_frame env0 "default" (mkDev "db" "app" "/work/db") "host:3" two_services
              two_services_loaded "default/api/app" Hl ltac:(discriminate)) as (HI & _ & _).
  destruct (ops_frame env0 "default" web "" two_services
              two_services_loaded "default/api/app" Hl ltac:(discriminate)) as (_ & HS & HD).
  destruct (HI (snd (Insert env0 "default" (mkDev "db" "app" "/work/db") "host:3" two_services))
              eq_refl) as (s1 & H1 & E1).
  destruct (HS (snd (Stop env0 "default" web two_services)) eq_refl) as (s2 & H2 & E2).
  destruct (HD (snd (Delete env0 "default" web two_services)) eq_refl) as (s3 & H3 & E3).
  rewrite Ha in E1, E2, E3.
  split; [exists s1; auto|]; split; [exists s2; auto|exists s3; auto].
Defined.

(** An [Insert] at a key with no record or a stopped one (empty handle),
    on a loaded map that is not nil, succeeds when the write does, and
    stores [{absFolder, h}]. *)
Lemma Insert_free (env : OS) (ns : string) (dev : Model.Dev) (h : string)
    (f : StFile) (s : Storage) (absFolder : string) :
  load_file env f = Ok s ->
  services_nil s = false ->
  (services s !! getFullName ns dev = None \/
   exists fo, services s !! getFullName ns dev = Some {| folder := fo; syncthing := "" |}) ->
  Writable env = true ->
  Storage.fixPath env (Model.Source dev) = Ok absFolder ->
  exists f', Insert env ns dev h f = (Returned (Ok tt), f') /\
  exists s', load_file env f' = Ok s' /\
    services s' !! getFullName ns dev = Some {| folder := absFolder; syncthing := h |}.
Proof.
  intros Hl Hns Hfree Hw Hf.
  assert (Hn : newService env (Model.Source dev) h = Ok {| folder := absFolder; syncthing := h |})
    by (unfold newService; rewrite Hf; reflexivity).
  rewrite Insert_unfold, Hl, Hn; cbv zeta.
  rewrite assign_save_ok by (try apply (load_path env f); assumption).
  assert (Hup : exists s', load_file env (FContents (encode_storage (set_services s
             (<[getFullName ns dev := {| folder := absFolder; syncthing := h |}]> (services s)))))
             = Ok s' /\ services s' !! getFullName ns dev
                        = Some {| folder := absFolder; syncthing := h |}).
  { rewrite load_encode; eexists; split; [reflexivity|]; apply lookup_insert_eq. }
  destruct Hfree as [Hk|[fo Hk]]; rewrite Hk; [eauto|].
  destruct (Service_eqb _ _) eqn:He; [|cbn [syncthing String.eqb negb]; eauto].
  apply Service_eqb_spec in He; rewrite <- He.
  eexists; split; [reflexivity|]; eauto.
Qed.

(** After a successful [Stop], the record at the key is absent and the
    file unchanged, or the map is not nil and the record's handle is
    empty. *)
Lemma Stop_ok_inv (env : OS) (ns : string) (dev : Model.Dev) (f f1 : StFile) :
  Stop env ns dev f = (Returned (Ok tt), f1) ->
  exists s1, load_file env f1 = Ok s1 /\
   ((services s1 !! getFullName ns dev = None /\ f1 = f) \/
    (services_nil s1 = false /\
     exists fo, services s1 !! getFullName ns dev = Some {| folder := fo; syncthing := "" |})).
Proof.
  rewrite Stop_unfold.
  destruct (load_file env f) as [s|] eqn:Hl; [|discriminate].
  destruct (services s !! getFullName ns dev) as [svc|] eqn:Hk.
  - intros Hs; apply assign_save_inv in Hs as [[_ ->]|[[Hs _]|[Hs _]]]; try discriminate.
    rewrite load_encode; eexists; split; [reflexivity|].
    right; split; [reflexivity|]; exists (folder svc); apply lookup_insert_eq.
  - intros H; injection H as <-; eauto.
Qed.

(** After a successful [Stop] on a state file whose map is not nil,
    [Insert] with any handle succeeds (when the source resolves and the
    write succeeds), and [Get] then returns the new record: a stopped
    session can be started again.  When the loaded map is nil, [Stop]
    succeeds without writing and the [Insert] that follows panics. *)
Theorem Stop_then_Insert (env : OS) (ns : string) (dev : Model.Dev) (h : string)
    (f f1 : StFile) (s : Storage) (absFolder : string) :
  load_file env f = Ok s ->
  Storage.fixPath env (Model.Source dev) = Ok absFolder ->
  (services_nil s = false -> Writable env = true ->
   Stop env ns dev f = (Returned (Ok tt), f1) ->
   exists f2, Insert env ns dev h f1 = (Returned (Ok tt), f2) /\
     Get env ns dev f2 = (Returned (Ok {| folder := absFolder; syncthing := h |}), f2)) /\
  (services_nil s = true ->
   Stop env ns dev f = (Returned (Ok tt), f) /\
   Insert env ns dev h f = (Panicked nil_map_panic, f)).
Proof.
  intros Hl Hf; split.
  - intros Hns Hw Hs.
    destruct (Stop_ok_inv env ns dev f f1 Hs) as (s1 & Hl1 & [[Hk ->]|[Hns1 Hfree]]).
    + rewrite Hl in Hl1; injection Hl1 as <-.
      destruct (Insert_free env ns dev h f s absFolder Hl Hns (or_introl Hk) Hw Hf)
        as (f2 & Hi & s2 & Hl2 & Hk2).
      exists f2; split; [exact Hi|].
      rewrite Get_unfold, Hl2, Hk2; reflexivity.
    + destruct (Insert_free env ns dev h f1 s1 absFolder Hl1 Hns1 (or_intror Hfree) Hw Hf)
        as (f2 & Hi & s2 & Hl2 & Hk2).
      exists f2; split; [exact Hi|].
      rewrite Get_unfold, Hl2, Hk2; reflexivity.
  - intros Hns.
    destruct (load_inv env f s Hl) as [Hnil _].
    assert (Hk : services s !! getFullName ns dev = None)
      by (rewrite (Hnil Hns); apply lookup_empty).
    assert (Hn : newService env (Model.Source dev) h = Ok {| folder := absFolder; syncthing := h |})
      by (unfold newService; rewrite Hf; reflexivity).
    split.
    + rewrite Stop_unfold, Hl, Hk; reflexivity.
    + rewrite Insert_unfold, Hl, Hn; cbv zeta; rewrite Hk.
      unfold assign_save; rewrite Hns; reflexivity.
Qed.

Lemma Stop_then_Insert_witness :
  (exists f2,
    Insert env0 "default" web "host:5555"
      (snd (Stop env0 "default" web (one_service "/work/web" "host:1234"))) = (Returned (Ok tt), f2) /\
    Get env0 "default" web f2
      = (Returned (Ok {| folder := "/work/web"; syncthing := "host:5555" |}), f2)) /\
  Stop env0 "default" web nil_services = (Returned (Ok tt), nil_services) /\
  Insert env0 "default" web "host:5555" nil_services = (Panicked nil_map_panic, nil_services).
Proof.
  assert (H : Stop env0 "default" web (one_service "/work/web" "host:1234")
     = (Returned (Ok tt), snd (Stop env0 "default" web (one_service "/work/web" "host:1234"))))
    by reflexivity.
  split.
  - refine (proj1 (Stop_then_Insert env0 "default" web "host:5555"
      (one_service "/work/web" "host:1234") _
      {| path := StPath env0; version := current_version;
         services := {[ "default/web/app" := {| folder := "/work/web"; syncthing := "host:1234" |} ]};
         services_nil := false |}
      "/work/web" eq_refl eq_refl) eq_refl eq_refl H).
  - exact (proj2 (Stop_then_Insert env0 "default" web "host:5555" nil_services nil_services
      {| path := StPath env0; version := current_version; services := ∅; services_nil := true |}
      "/work/web" eq_refl eq_refl) eq_refl).
Defined.

(** [Stop] and [Delete] are idempotent on the session map: a second
    successful call leaves the map that the first one left. *)
Theorem Stop_Delete_idempotent (env : OS) (ns : string) (dev : Model.Dev)
    (f f1 f2 : StFile) :
  (Stop env ns dev f = (Returned (Ok tt), f1) -> Stop env ns dev f1 = (Returned (Ok tt), f2) ->
   exists s1 s2, load_file env f1 = Ok s1 /\ load_file env f2 = Ok s2 /\
                 services s2 = services s1) /\
  (Delete env ns dev f = (Returned (Ok tt), f1) -> Delete env ns dev f1 = (Returned (Ok tt), f2) ->
   exists s1 s2, load_file env f1 = Ok s1 /\ load_file env f2 = Ok s2 /\
                 services s2 = services s1).
Proof.
  split.
  - intros H1 H2.
    destruct (Stop_ok_inv env ns dev f f1 H1) as (s1 & Hl1 & [[Hk _]|[_ [fo Hk]]]);
      rewrite Stop_unfold, Hl1, Hk in H2.
    + injection H2 as <-; eauto.
    + apply assign_save_inv in H2 as [[_ ->]|[[H2 _]|[H2 _]]]; try discriminate.
      rewrite load_encode; do 2 eexists; split; [exact Hl1|]; split; [reflexivity|].
      cbn; apply insert_id, Hk.
  - intros H1 H2.
    rewrite Delete_unfold in H1.
    destruct (load_file env f) as [s|]; [|discriminate].
    apply save_inv in H1 as [[_ ->]|[H1 _]]; [|discriminate].
    rewrite Delete_unfold, load_encode in H2.
    apply save_inv in H2 as [[_ ->]|[H2 _]]; [|discriminate].
    rewrite !load_encode; do 2 eexists; split; [reflexivity|]; split; [reflexivity|].
    cbn; apply delete_delete_eq.
Qed.

Lemma Stop_Delete_idempotent_witness :
  exists s1 s2,
    load_file env0 (snd (Delete env0 "default" web (one_service "/work/web" "host:1234"))) = Ok s1 /\
    load_file env0 (snd (Delete env0 "default" web
                 (snd (Delete env0 "default" web (one_service "/work/web" "host:1234"))))) = Ok s2 /\
    services s2 = services s1.
Proof.
  exact (proj2 (Stop_Delete_idempotent env0 "default" web
    (one_service "/work/web" "host:1234") _ _) eq_refl eq_refl).
Defined.

(** When the working directory is absolute, the folder [Insert] records
    is absolute: an absolute source is kept, a relative one is joined to
    the working directory. *)
Theorem Insert_folder_absolute (env : OS) (ns : string) (dev : Model.Dev) (h : string)
    (f f' : StFile) :
  IsAbs (Cwd env) = true ->
  Insert env ns dev h f = (Returned (Ok tt), f') ->
  exists svc, Get env ns dev f' = (Returned (Ok svc), f') /\
              IsAbs (folder svc) = true /\ syncthing svc = h.
Proof.
  intros Hc H.
  destruct (Insert_ok_inv env ns dev h f f' H) as (svc & s' & Hn & Hl & Hk).
  exists svc; split; [rewrite Get_unfold, Hl, Hk; reflexivity|].
  unfold newService, Storage.fixPath, Getwd in Hn.
  destruct (IsAbs (Model.Source dev)) eqn:Ha.
  - injection Hn as <-; auto.
  - destruct (GetwdFails env); [discriminate|].
    injection Hn as <-; split; [|reflexivity].
    change (IsAbs (Join [Cwd env; Model.Source dev]) = true); apply Join_rooted, Hc.
Qed.

Lemma Insert_folder_absolute_witness :
  Insert env0 "default" (mkDev "web" "app" "src") "host:1234" FMissing
    = (Returned (Ok tt), snd (Insert env0 "default" (mkDev "web" "app" "src") "host:1234" FMissing)) /\
  exists svc,
    Get env0 "default" (mkDev "web" "app" "src")
        (snd (Insert env0 "default" (mkDev "web" "app" "src") "host:1234" FMissing))
      = (Returned (Ok svc), snd (Insert env0 "default" (mkDev "web" "app" "src") "host:1234" FMissing)) /\
    IsAbs (folder svc) = true /\ syncthing svc = "host:1234".
Proof.
  assert (H : Insert env0 "default" (mkDev "web" "app" "src") "host:1234" FMissing
    = (Returned (Ok tt), snd (Insert env0 "default" (mkDev "web" "app" "src") "host:1234" FMissing)))
    by reflexivity.
  split; [exact H|].
  exact (Insert_folder_absolute env0 "default" (mkDev "web" "app" "src") "host:1234" _ _ eq_refl H).
Defined.

(** With no state file yet, [Insert] creates it, holding the one new
    record (when the source resolves and the write succeeds). *)
Theorem Insert_creates_state (env : OS) (ns : string) (dev : Model.Dev) (h : string)
    (absFolder : string) :
  Writable env = true ->
  Storage.fixPath env (Model.Source dev) = Ok absFolder ->
  exists f', Insert env ns dev h FMissing = (Returned (Ok tt), f') /\
    All env f' = {[ getFullName ns dev := {| folder := absFolder; syncthing := h |} ]}.
Proof.
  intros Hw Hf.
  assert (Hn : newService env (Model.Source dev) h = Ok {| folder := absFolder; syncthing := h |})
    by (unfold newService; rewrite Hf; reflexivity).
  rewrite Insert_unfold; cbn [load_file]; rewrite Hn; cbv zeta.
  cbn [services fresh]; rewrite lookup_empty, assign_save_ok by done.
  eexists; split; [reflexivity|].
  unfold All; rewrite load_encode; cbn [services set_services fresh].
  apply insert_empty.
Qed.

Lemma Insert_creates_state_witness :
  exists f', Insert env0 "default" web "host:1234" FMissing = (Returned (Ok tt), f') /\
    All env0 f' = {[ "default/web/app" := {| folder := "/work/web"; syncthing := "host:1234" |} ]}.
Proof. exact (Insert_creates_state env0 "default" web "host:1234" "/work/web" eq_refl eq_refl). Defined.

(** When the state file cannot be read or decoded, [Insert], [Get],
    [Stop] and [Delete] return that error and write nothing, while [All]
    returns the empty map. *)
Theorem load_error_propagates (env : OS) (ns : string) (dev : Model.Dev) (h : string)
    (f : StFile) (e : Error) :
  load_file env f = Err e ->
  Insert env ns dev h f = (Returned (Err e), f) /\ Get env ns dev f = (Returned (Err e), f) /\
  Stop env ns dev f = (Returned (Err e), f) /\ Delete env ns dev f = (Returned (Err e), f) /\
  All env f = ∅.
Proof.
  intros Hl.
  rewrite Insert_unfold, Get_unfold, Stop_unfold, Delete_unfold, Hl.
  unfold All; rewrite Hl; auto.
Qed.

Lemma load_error_propagates_witness :
  Insert env0 "default" web "host:1234" FMalformed = (Returned (Err ErrUnmarshalStorage), FMalformed) /\
  Get env0 "default" web FMalformed = (Returned (Err ErrUnmarshalStorage), FMalformed) /\
  Stop env0 "default" web FMalformed = (Returned (Err ErrUnmarshalStorage), FMalformed) /\
  Delete env0 "default" web FMalformed = (Returned (Err ErrUnmarshalStorage), FMalformed) /\
  All env0 FMalformed = ∅.
Proof. exact (load_error_propagates env0 "default" web "host:1234" FMalformed _ eq_refl). Defined.
